(** * stat-functions: means and standard deviations of named distributions

    A shallow embedding of the two Python modules of the repository,
    [src/code/functions.py] (module [CodeFunctions] below) and
    [src/functions.py] (module [Functions] below), and the properties of
    their validation and of their closed-form formulas.

    Numbers.  A Python argument is an [int] or a [float]; [isinstance(n, int)]
    tells them apart, so the embedding keeps the tag.  An [int] is an
    unbounded integer ([Z]).  A [float] is modelled by the real number it
    denotes ([R]): the formulas are read as exact real arithmetic, and
    rounding, overflow to infinity, underflow to zero and NaN of binary64 are
    outside the model.  Everything below is a statement about the validation
    logic and about the formulas over the reals.

    Exceptions.  [raise ValueError(msg)] is [Raise (ValueError msg)].  The
    arithmetic the functions use can raise too: true division by zero raises
    [ZeroDivisionError] and [math.sqrt] of a negative number raises
    [ValueError("math domain error")]; both are modelled, so that the absence
    of arithmetic errors after validation is a theorem and not an assumption. *)

From Stdlib Require Import Reals.Reals Reals.RIneq.
From Stdlib Require Import ZArith Lia Lra Psatz.
From Stdlib Require Import String List Bool.
Import ListNotations.

Open Scope R_scope.

(** ** Python numbers *)

Inductive pynum : Type :=
| PyInt (z : Z)
| PyFloat (r : R).

(** The real number a Python number denotes. *)
Definition to_R (x : pynum) : R :=
  match x with
  | PyInt z => IZR z
  | PyFloat r => r
  end.

(** [isinstance(x, int)] *)
Definition isinstance_int (x : pynum) : bool :=
  match x with
  | PyInt _ => true
  | PyFloat _ => false
  end.

(** ** Exceptions and results *)

Inductive exn : Type :=
| ValueError (msg : string)
| ZeroDivisionError (msg : string).

Inductive result (A : Type) : Type :=
| Ok (v : A)
| Raise (e : exn).

Arguments Ok {A} v.
Arguments Raise {A} e.

Definition bind {A B : Type} (m : result A) (k : A -> result B) : result B :=
  match m with
  | Ok v => k v
  | Raise e => Raise e
  end.

Notation "x <- m ;; k" := (bind m (fun x => k))
  (at level 61, m at next level, right associativity).

(** ** Comparisons

    Python compares an [int] with a [float] by value, with no loss; so do
    these, on the denoted reals. *)

Definition Rleb (x y : R) : bool := if Rle_dec x y then true else false.
Definition Rltb (x y : R) : bool := if Rlt_dec x y then true else false.
Definition Reqb (x y : R) : bool := if Req_dec_T x y then true else false.

Definition py_le (x y : pynum) : bool := Rleb (to_R x) (to_R y).
Definition py_lt (x y : pynum) : bool := Rltb (to_R x) (to_R y).
Definition py_gt (x y : pynum) : bool := Rltb (to_R y) (to_R x).
Definition py_eq (x y : pynum) : bool := Reqb (to_R x) (to_R y).

(** ** Arithmetic

    [*] and [-] stay in [int] on two [int]s and give a [float] otherwise;
    [/] is true division and always gives a [float]; [x ** k] with a
    literal natural exponent keeps the type of [x]. *)

Definition py_mul (x y : pynum) : pynum :=
  match x, y with
  | PyInt a, PyInt b => PyInt (a * b)
  | _, _ => PyFloat (to_R x * to_R y)
  end.

Definition py_sub (x y : pynum) : pynum :=
  match x, y with
  | PyInt a, PyInt b => PyInt (a - b)
  | _, _ => PyFloat (to_R x - to_R y)
  end.

Definition py_pow (x : pynum) (k : nat) : pynum :=
  match x with
  | PyInt a => PyInt (a ^ Z.of_nat k)
  | PyFloat r => PyFloat (r ^ k)
  end.

Definition py_truediv (x y : pynum) : result pynum :=
  if Reqb (to_R y) 0
  then Raise (ZeroDivisionError "division by zero")
  else Ok (PyFloat (to_R x / to_R y)).

Definition math_sqrt (x : pynum) : result pynum :=
  if Rltb (to_R x) 0
  then Raise (ValueError "math domain error")
  else Ok (PyFloat (sqrt (to_R x))).

(** ** The messages of the validation errors *)

Definition msg_p_closed : string := "p must agree with 0 <= p <= 1.".
Definition msg_p_open : string := "p must agree with 0 < p <= 1.".
Definition msg_n : string := "n must be a non-zero positive integer.".
Definition msg_support : string := "support must be 0 or 1.".
Definition msg_ab : string := "a and b must agree with a < b.".
Definition msg_rate_le : string := "λ cannot be less than or equal to 0.".
Definition msg_rate_eq : string := "λ cannot be equal to 0.".

(** ** src/code/functions.py *)

Module CodeFunctions.

Definition mean_binomial_dist (p n : pynum) : result pynum :=
  if negb (py_le (PyInt 0) p && py_le p (PyInt 1)) then
    Raise (ValueError msg_p_closed)
  else if negb (isinstance_int n) then
    Raise (ValueError msg_n)
  else if py_le n (PyInt 0) then
    Raise (ValueError msg_n)
  else
    Ok (py_mul n p).

Definition mean_geometric_dist (p support : pynum) : result pynum :=
  if negb (py_lt (PyInt 0) p && py_le p (PyInt 1)) then
    Raise (ValueError msg_p_open)
  else if py_eq support (PyInt 0) then
    py_truediv (PyInt 1) p
  else if py_eq support (PyInt 1) then
    py_truediv (py_sub (PyInt 1) p) (PyInt 1)
  else
    Raise (ValueError msg_support).

Definition mean_uniform_dist (a b : pynum) : result pynum :=
  if py_gt a b then
    Raise (ValueError msg_ab)
  else
    py_truediv (py_mul a b) (PyInt 2).

Definition mean_exponential_dist (rate : pynum) : result pynum :=
  if py_le rate (PyInt 0) then
    Raise (ValueError msg_rate_le)
  else
    py_truediv (PyInt 1) rate.

Definition stdev_binomial_dist (p n : pynum) : result pynum :=
  if negb (py_le (PyInt 0) p && py_le p (PyInt 1)) then
    Raise (ValueError msg_p_closed)
  else if negb (isinstance_int n) then
    Raise (ValueError msg_n)
  else if py_le n (PyInt 0) then
    Raise (ValueError msg_n)
  else
    let var := py_mul (py_mul n p) (py_sub (PyInt 1) p) in
    math_sqrt var.

Definition stdev_geometric_dist (p : pynum) : result pynum :=
  if negb (py_lt (PyInt 0) p && py_le p (PyInt 1)) then
    Raise (ValueError msg_p_open)
  else
    var <- py_truediv (py_sub (PyInt 1) p) (py_pow p 2) ;;
    math_sqrt var.

Definition stdev_poisson_dist (rate : pynum) : result pynum :=
  if py_le rate (PyInt 0) then
    Raise (ValueError msg_rate_le)
  else
    math_sqrt rate.

Definition stdev_uniform_dist (a b : pynum) : result pynum :=
  if py_gt a b then
    Raise (ValueError msg_ab)
  else
    twelfth <- py_truediv (PyInt 1) (PyInt 12) ;;
    let var := py_mul twelfth (py_pow (py_sub b a) 2) in
    math_sqrt var.

Definition stdev_exponential_dist (rate : pynum) : result pynum :=
  if py_le rate (PyInt 0) then
    Raise (ValueError msg_rate_le)
  else
    var <- py_truediv (PyInt 1) (py_pow rate 2) ;;
    math_sqrt var.

End CodeFunctions.

(** ** src/functions.py *)

Module Functions.

Definition mean_binomial_dist (p n : pynum) : result pynum :=
  if negb (py_le (PyInt 0) p && py_le p (PyInt 1)) then
    Raise (ValueError msg_p_closed)
  else if negb (isinstance_int n) then
    Raise (ValueError msg_n)
  else
    Ok (py_mul n p).

Definition mean_geometric_dist (p support : pynum) : result pynum :=
  if negb (py_lt (PyInt 0) p && py_le p (PyInt 1)) then
    Raise (ValueError msg_p_open)
  else if py_eq support (PyInt 0) then
    py_truediv (PyInt 1) p
  else if py_eq support (PyInt 1) then
    py_truediv (py_sub (PyInt 1) p) (PyInt 1)
  else
    Raise (ValueError msg_support).

Definition mean_uniform_dist (a b : pynum) : result pynum :=
  if negb (py_lt a b) then
    Raise (ValueError msg_ab)
  else
    py_truediv (py_mul a b) (PyInt 2).

Definition mean_exponential_dist (rate : pynum) : result pynum :=
  if py_eq rate (PyInt 0) then
    Raise (ValueError msg_rate_eq)
  else
    py_truediv (PyInt 1) rate.

End Functions.

(** ** Reading results *)

(** [returns r x]: the call returned normally, with a number denoting [x]. *)
Definition returns (r : result pynum) (x : R) : Prop :=
  exists v, r = Ok v /\ to_R v = x.

(** [raises_invalid r msg]: the call raised [ValueError(msg)]. *)
Definition raises_invalid (r : result pynum) (msg : string) : Prop :=
  r = Raise (ValueError msg).




(** ** Comparison lemmas *)

Lemma Rleb_spec (x y : R) : reflect (x <= y) (Rleb x y).
Proof. unfold Rleb. destruct (Rle_dec x y); constructor; assumption. Qed.

Lemma Rltb_spec (x y : R) : reflect (x < y) (Rltb x y).
Proof. unfold Rltb. destruct (Rlt_dec x y); constructor; assumption. Qed.

Lemma Reqb_spec (x y : R) : reflect (x = y) (Reqb x y).
Proof. unfold Reqb. destruct (Req_dec_T x y); constructor; assumption. Qed.

Lemma Rleb_true (x y : R) : x <= y -> Rleb x y = true.
Proof. intros H. destruct (Rleb_spec x y); [reflexivity | contradiction]. Qed.

Lemma Rleb_false (x y : R) : y < x -> Rleb x y = false.
Proof. intros H. destruct (Rleb_spec x y); [lra | reflexivity]. Qed.

Lemma Rltb_true (x y : R) : x < y -> Rltb x y = true.
Proof. intros H. destruct (Rltb_spec x y); [reflexivity | contradiction]. Qed.

Lemma Rltb_false (x y : R) : y <= x -> Rltb x y = false.
Proof. intros H. destruct (Rltb_spec x y); [lra | reflexivity]. Qed.

Lemma Reqb_true (x y : R) : x = y -> Reqb x y = true.
Proof. intros H. destruct (Reqb_spec x y); [reflexivity | contradiction]. Qed.

Lemma Reqb_false (x y : R) : x <> y -> Reqb x y = false.
Proof. intros H. destruct (Reqb_spec x y); [contradiction | reflexivity]. Qed.

(** Decide every comparison in the goal from the hypotheses, by [lra]. *)
Ltac cmp_known :=
  repeat first
    [ rewrite Rleb_true by (simpl; lra)
    | rewrite Rleb_false by (simpl; lra)
    | rewrite Rltb_true by (simpl; lra)
    | rewrite Rltb_false by (simpl; lra)
    | rewrite Reqb_true by (simpl; lra)
    | rewrite Reqb_false by (simpl; lra) ].

(** Split on every comparison still undecided in the goal. *)
Ltac cmp_split :=
  repeat match goal with
  | |- context [Rleb ?a ?b] => destruct (Rleb_spec a b)
  | |- context [Rltb ?a ?b] => destruct (Rltb_spec a b)
  | |- context [Reqb ?a ?b] => destruct (Reqb_spec a b)
  end.

Ltac unfold_py :=
  unfold py_le, py_lt, py_gt, py_eq, py_truediv, math_sqrt, bind.

(** ** Arithmetic lemmas *)

Lemma to_R_py_mul (x y : pynum) : to_R (py_mul x y) = to_R x * to_R y.
Proof. destruct x, y; simpl; try reflexivity. apply mult_IZR. Qed.

Lemma to_R_py_sub (x y : pynum) : to_R (py_sub x y) = to_R x - to_R y.
Proof. destruct x, y; simpl; try reflexivity. apply minus_IZR. Qed.

Lemma to_R_py_pow (x : pynum) (k : nat) : to_R (py_pow x k) = to_R x ^ k.
Proof. destruct x; simpl; try reflexivity. symmetry. apply pow_IZR. Qed.

Lemma py_truediv_ok (x y : pynum) :
  to_R y <> 0 -> py_truediv x y = Ok (PyFloat (to_R x / to_R y)).
Proof. intros H. unfold py_truediv. rewrite Reqb_false by assumption. reflexivity. Qed.

Lemma math_sqrt_ok (x : pynum) :
  0 <= to_R x -> math_sqrt x = Ok (PyFloat (sqrt (to_R x))).
Proof. intros H. unfold math_sqrt. rewrite Rltb_false by assumption. reflexivity. Qed.


(** Push [to_R] through the arithmetic. *)
Ltac push_to_R :=
  rewrite ?to_R_py_mul, ?to_R_py_sub, ?to_R_py_pow in *; simpl to_R in *.

(** ** Binomial distribution *)



(** ** Uniform distribution *)



(** When each uniform function rejects its bounds: [src/code/functions.py]
    tests [a > b], [src/functions.py] tests [not a < b]. *)
Lemma code_mean_uniform_raises_iff (a b : pynum) :
  raises_invalid (CodeFunctions.mean_uniform_dist a b) msg_ab <-> to_R b < to_R a.
Proof.
  unfold raises_invalid, CodeFunctions.mean_uniform_dist, py_gt, py_truediv.
  simpl to_R. rewrite (Reqb_false 2 0) by lra.
  destruct (Rltb_spec (to_R b) (to_R a)) as [H | H];
    split; intros H'; try reflexivity; try assumption; try discriminate.
  contradiction.
Qed.

Lemma code_stdev_uniform_raises_iff (a b : pynum) :
  raises_invalid (CodeFunctions.stdev_uniform_dist a b) msg_ab <-> to_R b < to_R a.
Proof.
  unfold raises_invalid, CodeFunctions.stdev_uniform_dist, py_gt.
  destruct (Rltb_spec (to_R b) (to_R a)) as [H | H].
  - split; intros; [assumption | reflexivity].
  - split; intros H'; [| contradiction].
    rewrite py_truediv_ok in H' by (simpl; lra).
    unfold bind in H'. cbv zeta in H'.
    rewrite math_sqrt_ok in H'; [discriminate |].
    push_to_R. apply Rmult_le_pos; [lra | apply pow2_ge_0].
Qed.

Lemma mean_uniform_raises_iff (a b : pynum) :
  raises_invalid (Functions.mean_uniform_dist a b) msg_ab <-> to_R b <= to_R a.
Proof.
  unfold raises_invalid, Functions.mean_uniform_dist, py_lt, py_truediv.
  simpl to_R. rewrite (Reqb_false 2 0) by lra.
  destruct (Rltb_spec (to_R a) (to_R b)) as [H | H]; simpl negb; cbv iota;
    split; intros H'; try reflexivity; try discriminate; lra.
Qed.

(** C3. The claim wants InvalidParameter whenever a < b fails, a == b
    included.  [src/functions.py] does that; [src/code/functions.py] tests
    [a > b] only, so on equal bounds its mean returns (5 * 5) / 2 = 12.5 and
    its standard deviation returns 0, against its own docstring and message
    ("a and b must agree with a < b").  On (8, 3) every variant raises. *)
Theorem uniform_equal_bounds_not_rejected :
  CodeFunctions.mean_uniform_dist (PyInt 5) (PyInt 5) = Ok (PyFloat (25 / 2)) /\
  CodeFunctions.stdev_uniform_dist (PyInt 5) (PyInt 5) = Ok (PyFloat 0) /\
  Functions.mean_uniform_dist (PyInt 5) (PyInt 5) = Raise (ValueError msg_ab) /\
  CodeFunctions.mean_uniform_dist (PyInt 8) (PyInt 3) = Raise (ValueError msg_ab) /\
  CodeFunctions.stdev_uniform_dist (PyInt 8) (PyInt 3) = Raise (ValueError msg_ab) /\
  Functions.mean_uniform_dist (PyInt 8) (PyInt 3) = Raise (ValueError msg_ab).
Proof.
  repeat split.
  - unfold CodeFunctions.mean_uniform_dist, py_gt. cmp_known.
    rewrite py_truediv_ok by (simpl; lra).
    do 2 f_equal; try (simpl; lra).
  - unfold CodeFunctions.stdev_uniform_dist, py_gt. cmp_known.
    rewrite py_truediv_ok by (simpl; lra).
    unfold bind. cbv zeta.
    rewrite math_sqrt_ok by (push_to_R; simpl; lra).
    do 2 f_equal. push_to_R.
    simpl.
    replace (1 / 12 * (0 * (0 * 1))) with 0 by lra.
    apply sqrt_0.
  - apply mean_uniform_raises_iff. simpl. lra.
  - apply code_mean_uniform_raises_iff. simpl. lra.
  - apply code_stdev_uniform_raises_iff. simpl. lra.
  - apply mean_uniform_raises_iff. simpl. lra.
Qed.

(** ** Binomial distribution: the two validation variants *)

(** Both modules test [isinstance(n, int)]: a float trial count is rejected
    by both, whatever its value. *)
Lemma binomial_mean_float_n_raises (p : pynum) (r : R) :
  0 <= to_R p <= 1 ->
  CodeFunctions.mean_binomial_dist p (PyFloat r) = Raise (ValueError msg_n) /\
  Functions.mean_binomial_dist p (PyFloat r) = Raise (ValueError msg_n).
Proof.
  intros Hp.
  unfold CodeFunctions.mean_binomial_dist, Functions.mean_binomial_dist, py_le.
  cmp_known. split; reflexivity.
Qed.

(** C4, as stated, fails: the claim has [src/functions.py] accept the trial
    count 2.5 and return 1.25; it does not return. *)
Lemma binomial_mean_permissive_rejects_2_5 :
  ~ returns (Functions.mean_binomial_dist (PyFloat (1 / 2)) (PyFloat (5 / 2))) (5 / 4).
Proof.
  intros [v [H _]].
  assert (Hp : 0 <= to_R (PyFloat (1 / 2)) <= 1) by (simpl; lra).
  destruct (binomial_mean_float_n_raises (PyFloat (1 / 2)) (5 / 2) Hp) as [_ Hf].
  rewrite Hf in H. discriminate.
Qed.

(** C4, amended.  mean_binomial_dist(0.5, 2.5) raises ValueError("n must be
    a non-zero positive integer.") in both modules: both test
    [isinstance(n, int)], and neither returns 1.25. *)
Theorem binomial_mean_rejects_2_5_in_both :
  CodeFunctions.mean_binomial_dist (PyFloat (1 / 2)) (PyFloat (5 / 2))
    = Raise (ValueError msg_n) /\
  Functions.mean_binomial_dist (PyFloat (1 / 2)) (PyFloat (5 / 2))
    = Raise (ValueError msg_n).
Proof.
  apply binomial_mean_float_n_raises. simpl. lra.
Qed.



(** ** Exponential distribution *)











(** ** Geometric distribution *)

Lemma geometric_p_check_passes (p : pynum) :
  0 < to_R p <= 1 ->
  negb (py_lt (PyInt 0) p && py_le p (PyInt 1)) = false.
Proof. intros H. unfold py_lt, py_le. cmp_known. reflexivity. Qed.





(** ** Poisson distribution *)



(** ** No arithmetic error after validation *)























(** * Further properties of the two modules *)

(** ** Uniform distribution: the two guards and the width *)






(** ** Binomial distribution: standard deviation against mean *)


Lemma code_mean_binomial_ok (p : pynum) (z : Z) :
  0 <= to_R p <= 1 ->
  0 < IZR z ->
  CodeFunctions.mean_binomial_dist p (PyInt z) = Ok (py_mul (PyInt z) p).
Proof.
  intros Hp Hz.
  unfold CodeFunctions.mean_binomial_dist, py_le. cmp_known. reflexivity.
Qed.







(** ** What the functions return *)

(** Split a function body on its comparisons and read the value off each
    returning leaf. *)
Ltac by_leaves tac :=
  unfold_py; cmp_split; simpl; intros H;
  first [discriminate H | injection H as <-; tac].

(** X7. The binomial mean returns n * p with Python's own typing: an int
    when p is an int (p = 0 or p = 1) and a float when p is a float, in both
    modules.  Every other function returns a float whenever it returns. *)
Theorem result_types (p n support a b rate v : pynum) :
  (CodeFunctions.mean_binomial_dist p n = Ok v ->
     isinstance_int v = isinstance_int p) /\
  (Functions.mean_binomial_dist p n = Ok v ->
     isinstance_int v = isinstance_int p) /\
  (CodeFunctions.mean_geometric_dist p support = Ok v -> isinstance_int v = false) /\
  (Functions.mean_geometric_dist p support = Ok v -> isinstance_int v = false) /\
  (CodeFunctions.mean_uniform_dist a b = Ok v -> isinstance_int v = false) /\
  (Functions.mean_uniform_dist a b = Ok v -> isinstance_int v = false) /\
  (CodeFunctions.mean_exponential_dist rate = Ok v -> isinstance_int v = false) /\
  (Functions.mean_exponential_dist rate = Ok v -> isinstance_int v = false) /\
  (CodeFunctions.stdev_binomial_dist p n = Ok v -> isinstance_int v = false) /\
  (CodeFunctions.stdev_geometric_dist p = Ok v -> isinstance_int v = false) /\
  (CodeFunctions.stdev_poisson_dist rate = Ok v -> isinstance_int v = false) /\
  (CodeFunctions.stdev_uniform_dist a b = Ok v -> isinstance_int v = false) /\
  (CodeFunctions.stdev_exponential_dist rate = Ok v -> isinstance_int v = false).
Proof.
  split; [| split].
  - unfold CodeFunctions.mean_binomial_dist.
    destruct n, p; by_leaves reflexivity.
  - unfold Functions.mean_binomial_dist.
    destruct n, p; by_leaves reflexivity.
  - repeat split.
    + unfold CodeFunctions.mean_geometric_dist. by_leaves reflexivity.
    + unfold Functions.mean_geometric_dist. by_leaves reflexivity.
    + unfold CodeFunctions.mean_uniform_dist. by_leaves reflexivity.
    + unfold Functions.mean_uniform_dist. by_leaves reflexivity.
    + unfold CodeFunctions.mean_exponential_dist. by_leaves reflexivity.
    + unfold Functions.mean_exponential_dist. by_leaves reflexivity.
    + unfold CodeFunctions.stdev_binomial_dist.
      destruct n; by_leaves reflexivity.
    + unfold CodeFunctions.stdev_geometric_dist. by_leaves reflexivity.
    + unfold CodeFunctions.stdev_poisson_dist. by_leaves reflexivity.
    + unfold CodeFunctions.stdev_uniform_dist. by_leaves reflexivity.
    + unfold CodeFunctions.stdev_exponential_dist. by_leaves reflexivity.
Qed.

Lemma result_types_witness :
  CodeFunctions.mean_binomial_dist (PyInt 1) (PyInt 7) = Ok (PyInt 7) /\
  isinstance_int (PyInt 7) = isinstance_int (PyInt 1) /\
  CodeFunctions.mean_binomial_dist (PyFloat 1) (PyInt 7) = Ok (PyFloat (7 * 1)) /\
  isinstance_int (PyFloat (7 * 1)) = isinstance_int (PyFloat 1).
Proof.
  assert (Hi : 0 <= to_R (PyInt 1) <= 1) by (simpl; lra).
  assert (Hf : 0 <= to_R (PyFloat 1) <= 1) by (simpl; lra).
  assert (Hz : 0 < IZR 7) by lra.
  pose proof (code_mean_binomial_ok (PyInt 1) 7 Hi Hz) as Ei.
  pose proof (code_mean_binomial_ok (PyFloat 1) 7 Hf Hz) as Ef.
  split; [exact Ei |].
  split; [exact (proj1 (result_types (PyInt 1) (PyInt 7) (PyInt 0) (PyInt 0)
                          (PyInt 1) (PyInt 1) (PyInt 7)) Ei) |].
  split; [exact Ef |].
  exact (proj1 (result_types (PyFloat 1) (PyInt 7) (PyInt 0) (PyInt 0)
                  (PyInt 1) (PyInt 1) (PyFloat (7 * 1))) Ef).
Defined.

(** X8. No standard deviation function ever returns a negative number. *)
Theorem stdev_results_nonnegative (p n a b rate v : pynum) :
  (CodeFunctions.stdev_binomial_dist p n = Ok v -> 0 <= to_R v) /\
  (CodeFunctions.stdev_geometric_dist p = Ok v -> 0 <= to_R v) /\
  (CodeFunctions.stdev_poisson_dist rate = Ok v -> 0 <= to_R v) /\
  (CodeFunctions.stdev_uniform_dist a b = Ok v -> 0 <= to_R v) /\
  (CodeFunctions.stdev_exponential_dist rate = Ok v -> 0 <= to_R v).
Proof.
  repeat split.
  - unfold CodeFunctions.stdev_binomial_dist.
    destruct n; by_leaves ltac:(apply sqrt_pos).
  - unfold CodeFunctions.stdev_geometric_dist. by_leaves ltac:(apply sqrt_pos).
  - unfold CodeFunctions.stdev_poisson_dist. by_leaves ltac:(apply sqrt_pos).
  - unfold CodeFunctions.stdev_uniform_dist. by_leaves ltac:(apply sqrt_pos).
  - unfold CodeFunctions.stdev_exponential_dist. by_leaves ltac:(apply sqrt_pos).
Qed.

Lemma stdev_results_nonnegative_witness :
  CodeFunctions.stdev_poisson_dist (PyInt 9) = Ok (PyFloat (sqrt (to_R (PyInt 9)))) /\
  0 <= to_R (PyFloat (sqrt (to_R (PyInt 9)))).
Proof.
  assert (E : CodeFunctions.stdev_poisson_dist (PyInt 9)
              = Ok (PyFloat (sqrt (to_R (PyInt 9))))).
  { unfold CodeFunctions.stdev_poisson_dist, py_le. cmp_known.
    apply math_sqrt_ok. simpl. lra. }
  split; [exact E |].
  exact (proj1 (proj2 (proj2 (stdev_results_nonnegative (PyInt 0) (PyInt 0)
           (PyInt 0) (PyInt 0) (PyInt 9) (PyFloat (sqrt (to_R (PyInt 9)))))))
           E).
Defined.

(** ** Geometric distribution: the support flag and the sizes of the results *)

(** X9. The support flag is compared by value, not by type: for a valid p a
    float 0.0 or 1.0 selects the same formula as the int 0 or 1, and every
    other number raises the support error, in both modules. *)
Theorem geometric_support_by_value (p support : pynum) :
  0 < to_R p <= 1 ->
  (to_R support = 0 ->
     CodeFunctions.mean_geometric_dist p support = Ok (PyFloat (1 / to_R p)) /\
     Functions.mean_geometric_dist p support = Ok (PyFloat (1 / to_R p))) /\
  (to_R support = 1 ->
     CodeFunctions.mean_geometric_dist p support = Ok (PyFloat (1 - to_R p)) /\
     Functions.mean_geometric_dist p support = Ok (PyFloat (1 - to_R p))) /\
  (to_R support <> 0 -> to_R support <> 1 ->
     raises_invalid (CodeFunctions.mean_geometric_dist p support) msg_support /\
     raises_invalid (Functions.mean_geometric_dist p support) msg_support).
Proof.
  intros Hp.
  pose proof (geometric_p_check_passes p Hp) as Hchk.
  assert (E1 : to_R (py_sub (PyInt 1) p) / to_R (PyInt 1) = 1 - to_R p)
    by (push_to_R; field).
  unfold raises_invalid, CodeFunctions.mean_geometric_dist,
    Functions.mean_geometric_dist.
  rewrite Hchk. unfold py_eq.
  split; [| split].
  - intros H0. rewrite Reqb_true by (simpl; lra).
    rewrite py_truediv_ok by lra. split; reflexivity.
  - intros H1. rewrite Reqb_false by (simpl; lra).
    rewrite Reqb_true by (simpl; lra).
    rewrite py_truediv_ok by (simpl; lra). rewrite E1. split; reflexivity.
  - intros H0 H1. rewrite !Reqb_false by (simpl; lra). split; reflexivity.
Qed.

Lemma geometric_support_by_value_witness :
  0 < to_R (PyFloat (1 / 4)) <= 1 /\
  to_R (PyFloat 1) = 1 /\
  CodeFunctions.mean_geometric_dist (PyFloat (1 / 4)) (PyFloat 1)
    = Ok (PyFloat (1 - to_R (PyFloat (1 / 4)))) /\
  to_R (PyFloat (1 / 2)) <> 0 /\
  to_R (PyFloat (1 / 2)) <> 1 /\
  raises_invalid (CodeFunctions.mean_geometric_dist (PyFloat (1 / 4)) (PyFloat (1 / 2)))
    msg_support.
Proof.
  assert (Hp : 0 < to_R (PyFloat (1 / 4)) <= 1) by (simpl; lra).
  assert (H1 : to_R (PyFloat 1) = 1) by reflexivity.
  assert (Hn0 : to_R (PyFloat (1 / 2)) <> 0) by (simpl; lra).
  assert (Hn1 : to_R (PyFloat (1 / 2)) <> 1) by (simpl; lra).
  split; [exact Hp |].
  split; [exact H1 |].
  split; [exact (proj1 (proj1 (proj2
            (geometric_support_by_value (PyFloat (1 / 4)) (PyFloat 1) Hp)) H1)) |].
  split; [exact Hn0 |].
  split; [exact Hn1 |].
  exact (proj1 (proj2 (proj2
           (geometric_support_by_value (PyFloat (1 / 4)) (PyFloat (1 / 2)) Hp))
           Hn0 Hn1)).
Defined.



(** ** Exponential distribution: the mean undoes itself *)



(** ** Poisson distribution: the standard deviation squares back *)



(** ** Binomial distribution: the size of the mean *)


